(** * Burnout calculator: the scoring core and the UI state of
    [src/components/BurnoutCalculator.tsx]

    The component keeps three pieces of React state ([inputs], [showResults],
    [isOpen]) and derives a risk score, a risk level and a projection string
    from [inputs] on every render.

    TypeScript's [number] is read in two ways in this development:

    - as a real number ([R]), the reading of the specification's data model
      ("real number"); all general statements are made on this reading;
    - as an IEEE 754 binary64 value (module [F64], on the kernel's primitive
      floats), where the concrete examples are evaluated again with the
      roundings JavaScript performs.

    [handleShare] is modelled by the list of what it does to the browser
    (toasts, the opened window, the download link, the new location), given
    the page's address and the outcome of the image generation; the built-ins
    it calls, [toFixed] and [encodeURIComponent], are written out. *)

From Stdlib Require Import Reals Lra Lia ZArith String Ascii List Bool Arith.
From Stdlib Require Import DecimalString.
From Stdlib Require Import Floats.PrimFloat.
Import ListNotations.

Local Open Scope R_scope.

(** ** Data model *)

(** [interface BurnoutInputs] (lines 23-27). *)
Record BurnoutInputs : Type := mkInputs {
  hoursWorked : R;
  sleepHours : R;
  selfCareHours : R
}.

(** The object literal given to [useState<BurnoutInputs>] (lines 30-34) and
    again to [setInputs] in [handleReset] (lines 127-131). *)
Definition defaultInputs : BurnoutInputs :=
  {| hoursWorked := 40; sleepHours := 7; selfCareHours := 5 |}.

(** ** The scorer (lines 41-48) *)

(** [Math.max] and [Math.min] on real numbers. *)
Definition Math_max (a b : R) : R := Rmax a b.
Definition Math_min (a b : R) : R := Rmin a b.

(** [calculateRiskScore] closes over the state variable [inputs]; here the
    closure's variable is the argument. *)
Definition calculateRiskScore (inputs : BurnoutInputs) : R :=
  let workLoad := hoursWorked inputs / 40 in
  let sleepDeficit := (8 - sleepHours inputs) / 8 in
  let selfCareDeficit := (10 - selfCareHours inputs) / 10 in
  let score := (workLoad * 4 + sleepDeficit * 3 + selfCareDeficit * 3) / 10 in
  Math_min (Math_max score 0) 1 * 10.

(** ** The classifiers (lines 50-60) *)

Local Open Scope string_scope.

(** The object [getRiskLevel] returns. *)
Record RiskLevel : Type := mkRiskLevel {
  level : string;
  color : string
}.

Definition getRiskLevel (score : R) : RiskLevel :=
  if Rle_dec score 3 then {| level := "Low"; color := "text-sage-500" |}
  else if Rle_dec score 6 then {| level := "Moderate"; color := "text-orange-500" |}
  else {| level := "High"; color := "text-red-500" |}.

Definition getBurnoutWindow (score : R) : string :=
  if Rle_dec score 3 then "Low risk - maintain current balance"
  else if Rle_dec score 6 then "4-8 weeks if patterns continue"
  else "2-4 weeks if patterns continue".

Local Close Scope string_scope.

(** ** The scorer in the specification's words (section 4.1, steps 1-5) *)

Module Spec.

Definition workLoad (i : BurnoutInputs) : R := hoursWorked i / 40.
Definition sleepDeficit (i : BurnoutInputs) : R := (8 - sleepHours i) / 8.
Definition selfCareDeficit (i : BurnoutInputs) : R := (10 - selfCareHours i) / 10.

(** The weighted sum, before the division by ten. *)
Definition weightedSum (i : BurnoutInputs) : R :=
  workLoad i * 4 + sleepDeficit i * 3 + selfCareDeficit i * 3.

Definition rawScore (i : BurnoutInputs) : R := weightedSum i / 10.

(** Clamping to the closed interval from [lo] to [hi], by cases. *)
Definition clamp (lo hi x : R) : R :=
  if Rlt_dec x lo then lo else if Rlt_dec hi x then hi else x.

Definition riskScore (i : BurnoutInputs) : R := clamp 0 1 (rawScore i) * 10.

End Spec.

(** ** The component's state and its handlers *)

(** The three [useState] cells that the handlers write (lines 30-36). *)
Record State : Type := mkState {
  inputs : BurnoutInputs;
  showResults : bool;
  isOpen : bool
}.

(** The state at mount: the initial values given to [useState]. *)
Definition initialState : State :=
  {| inputs := defaultInputs; showResults := false; isOpen := true |}.

(** The three sliders, named after the field each one writes. *)
Inductive Field : Type := HoursWorked | SleepHours | SelfCareHours.

(** The object spread [{ ...inputs, f: v }] of the sliders' callbacks. *)
Definition spread (i : BurnoutInputs) (f : Field) (v : R) : BurnoutInputs :=
  match f with
  | HoursWorked =>
      {| hoursWorked := v; sleepHours := sleepHours i; selfCareHours := selfCareHours i |}
  | SleepHours =>
      {| hoursWorked := hoursWorked i; sleepHours := v; selfCareHours := selfCareHours i |}
  | SelfCareHours =>
      {| hoursWorked := hoursWorked i; sleepHours := sleepHours i; selfCareHours := v |}
  end.

(** [onValueChange] of a slider (lines 184, 212, 240):
    [(value) => !showResults && setInputs({ ...inputs, f: value[0] })];
    [v] is [value[0]], the position of the slider's one thumb. *)
Definition onValueChange (f : Field) (v : R) (s : State) : State :=
  if negb (showResults s)
  then {| inputs := spread (inputs s) f v;
          showResults := showResults s; isOpen := isOpen s |}
  else s.

(** [handleCalculate] (lines 121-124). *)
Definition handleCalculate (s : State) : State :=
  {| inputs := inputs s; showResults := true; isOpen := false |}.

(** [handleReset] (lines 126-134). *)
Definition handleReset (_ : State) : State :=
  {| inputs := {| hoursWorked := 40; sleepHours := 7; selfCareHours := 5 |};
     showResults := false; isOpen := true |}.

(** [onOpenChange={setIsOpen}] of the collapsible panel (line 157). *)
Definition setIsOpen (b : bool) (s : State) : State :=
  {| inputs := inputs s; showResults := showResults s; isOpen := b |}.

Inductive Platform : Type := X | Linkedin | Download | Email.

(** [handleShare] (lines 62-119) reads the state and talks to the browser
    (window, document, toast); it calls none of [setInputs], [setShowResults]
    and [setIsOpen], so on [State] it is the identity. *)
Definition handleShare (_ : Platform) (s : State) : State := s.

(** What the user can do to the rendered component. *)
Inductive Event : Type :=
  | SlideTo (f : Field) (v : R)
  | ClickCalculate
  | ClickReset
  | ClickShare (p : Platform)
  | OpenChange (b : bool).

Definition dispatch (e : Event) (s : State) : State :=
  match e with
  | SlideTo f v => onValueChange f v s
  | ClickCalculate => handleCalculate s
  | ClickReset => handleReset s
  | ClickShare p => handleShare p s
  | OpenChange b => setIsOpen b s
  end.

(** Which controls the JSX renders: the button is "Calculate Risk" when
    [!showResults] and "Reset Calculator" otherwise (lines 251-265); the share
    buttons are inside [{showResults && ...}] (line 270).  The sliders are
    taken as always able to fire: their callback carries its own guard. *)
Definition rendered (s : State) (e : Event) : bool :=
  match e with
  | SlideTo _ _ => true
  | ClickCalculate => negb (showResults s)
  | ClickReset => showResults s
  | ClickShare _ => showResults s
  | OpenChange _ => true
  end.

(** One interaction: an event on a rendered control, then its handler. *)
Inductive step : State -> Event -> State -> Prop :=
  | step_intro (s : State) (e : Event) :
      rendered s e = true -> step s e (dispatch e s).

(** A sequence of interactions, oldest first. *)
Inductive steps : State -> list Event -> State -> Prop :=
  | steps_nil (s : State) : steps s [] s
  | steps_cons (s s1 s2 : State) (e : Event) (es : list Event) :
      step s e s1 -> steps s1 es s2 -> steps s (e :: es) s2.

(** The handlers applied in order, whether or not the control is rendered. *)
Fixpoint run (es : list Event) (s : State) : State :=
  match es with
  | [] => s
  | e :: es' => run es' (dispatch e s)
  end.

(** The specification's two UI modes, read off [showResults]. *)
Inductive Mode : Type := Editing | Results.

Definition mode (s : State) : Mode :=
  if showResults s then Results else Editing.

Definition isReset (e : Event) : bool :=
  match e with ClickReset => true | _ => false end.

(** ** The same code on binary64 numbers *)

Module F64.

Local Open Scope float_scope.

Record BurnoutInputs : Type := mkInputs {
  hoursWorked : float;
  sleepHours : float;
  selfCareHours : float
}.

(** [Math.max]: NaN if an argument is NaN, and [+0] is larger than [-0]. *)
Definition Math_max (a b : float) : float :=
  if is_nan a || is_nan b then nan
  else if a <? b then b
  else if b <? a then a
  else if get_sign a then b else a.

(** [Math.min]: NaN if an argument is NaN, and [-0] is smaller than [+0]. *)
Definition Math_min (a b : float) : float :=
  if is_nan a || is_nan b then nan
  else if a <? b then a
  else if b <? a then b
  else if get_sign a then a else b.

Definition calculateRiskScore (inputs : BurnoutInputs) : float :=
  let workLoad := hoursWorked inputs / 40 in
  let sleepDeficit := (8 - sleepHours inputs) / 8 in
  let selfCareDeficit := (10 - selfCareHours inputs) / 10 in
  let score := (workLoad * 4 + sleepDeficit * 3 + selfCareDeficit * 3) / 10 in
  Math_min (Math_max score 0) 1 * 10.

Definition getRiskLevel (score : float) : RiskLevel :=
  if score <=? 3 then {| level := "Low"; color := "text-sage-500" |}
  else if score <=? 6 then {| level := "Moderate"; color := "text-orange-500" |}
  else {| level := "High"; color := "text-red-500" |}.

Definition getBurnoutWindow (score : float) : string :=
  if score <=? 3 then "Low risk - maintain current balance"%string
  else if score <=? 6 then "4-8 weeks if patterns continue"%string
  else "2-4 weeks if patterns continue"%string.

End F64.

(** ** The sliders' ranges *)

(** The [min] and [max] props of the three sliders (lines 180-181, 208-209,
    236-237). *)
Definition sliderMin (f : Field) : R := 0.

Definition sliderMax (f : Field) : R :=
  match f with
  | HoursWorked => 100
  | SleepHours => 12
  | SelfCareHours => 40
  end.

(** [inputs.f], the value a slider shows (lines 179, 207, 235). *)
Definition fieldValue (i : BurnoutInputs) (f : Field) : R :=
  match f with
  | HoursWorked => hoursWorked i
  | SleepHours => sleepHours i
  | SelfCareHours => selfCareHours i
  end.

Definition inSliderRange (i : BurnoutInputs) : Prop :=
  forall f : Field, sliderMin f <= fieldValue i f <= sliderMax f.

(** An event whose slider value, if it has one, is between the slider's
    [min] and [max]. *)
Definition withinSlider (e : Event) : Prop :=
  match e with
  | SlideTo f v => sliderMin f <= v <= sliderMax f
  | _ => True
  end.

Definition isOpenChange (e : Event) : bool :=
  match e with OpenChange _ => true | _ => false end.

Definition isCalculate (e : Event) : bool :=
  match e with ClickCalculate => true | _ => false end.

(** How many events of a list satisfy [p]. *)
Definition countEvents (p : Event -> bool) (es : list Event) : nat :=
  length (filter p es).

(** A boolean as 0 or 1. *)
Definition flag (b : bool) : nat := if b then 1%nat else 0%nat.

(** ** Built-ins that [handleShare] and the results panel call *)

Local Open Scope string_scope.

(** The integer nearest to [x], the larger one of two: the [n] of
    [Number.prototype.toFixed] ("an integer for which n / 10^f - x is as close
    to zero as possible; if there are two such n, pick the larger n"). *)
Definition nearestInteger (x : R) : Z := Int_part (x + / 2).

(** The decimal digits of a natural number, "0" for zero. *)
Definition decimalDigits (n : Z) : string :=
  DecimalString.NilZero.string_of_uint (N.to_uint (Z.to_N n)).

(** The digits of [n] with a point before the last one, after padding to two
    digits: steps 11.c-11.d of [toFixed] for one fraction digit. *)
Definition pointBeforeLast (n : Z) : string :=
  let m := decimalDigits n in
  let m := if Nat.leb (String.length m) 1 then "0" ++ m else m in
  let k := String.length m in
  substring 0 (k - 1) m ++ "." ++ substring (k - 1) 1 m.

(** [x.toFixed(1)] for a number below 10^21 in absolute value, where the
    method prints plain decimal digits; every score is in that range. *)
Definition toFixed1 (x : R) : string :=
  if Rlt_dec x 0
  then "-" ++ pointBeforeLast (nearestInteger (- x * 10))
  else pointBeforeLast (nearestInteger (x * 10)).

(** The characters [encodeURIComponent] leaves as they are: letters, digits
    and [- _ . ! ~ * ' ( )]. *)
Definition uriUnescaped (c : ascii) : bool :=
  let n := Ascii.nat_of_ascii c in
  ((65 <=? n) && (n <=? 90) || (97 <=? n) && (n <=? 122)
   || (48 <=? n) && (n <=? 57))%nat
  || existsb (Ascii.eqb c)
       ["-"; "_"; "."; "!"; "~"; "*"; "'"; "("; ")"]%char.

Definition hexDigit (n : nat) : ascii :=
  match get n "0123456789ABCDEF" with
  | Some c => c
  | None => "0"%char
  end.

(** [%XX], the escape of one byte. *)
Definition percentEncode (c : ascii) : string :=
  let n := Ascii.nat_of_ascii c in
  String "%" (String (hexDigit (n / 16)) (String (hexDigit (n mod 16)) "")).

(** [encodeURIComponent] on a string given by its UTF-8 bytes: the escape of
    a character is the escapes of its UTF-8 bytes, and the characters left
    alone are single bytes. *)
Fixpoint encodeURIComponent (s : string) : string :=
  match s with
  | EmptyString => EmptyString
  | String c s' =>
      (if uriUnescaped c then String c "" else percentEncode c)
      ++ encodeURIComponent s'
  end.

(** ** [handleShare] and what it does to the browser (lines 62-119) *)

(** What [handleShare] reads from outside the component: the page's address,
    whether [exportRef.current] is set, and how the image comes out: the data
    URL of the canvas, or [None] when [html2canvas] rejects or [toDataURL]
    throws. *)
Record Browser : Type := mkBrowser {
  location_href : string;
  exportRef_current : bool;
  html2canvas_outcome : option string
}.

(** What [handleShare] does: a toast (with [variant: "destructive"] or
    without), [window.open], a click on a fresh download link, an assignment
    to [window.location.href]. *)
Inductive Effect : Type :=
  | Toast (title description : string) (destructive : bool)
  | WindowOpen (url target : string)
  | LinkClick (download href : string)
  | SetLocation (href : string).

(** The line feed of the template literal's [\n]. *)
Definition LF : string := String (Ascii.ascii_of_nat 10) "".

(** The template literal of line 65. *)
Definition shareText (i : BurnoutInputs) : string :=
  let score := calculateRiskScore i in
  let level := level (getRiskLevel score) in
  "I just checked my burnout risk level using the Burnout Calculator. My risk level is "
  ++ level ++ " (" ++ toFixed1 score ++ "/10). Check yours too!".

(** Lines 69-81: [imageUrl] and the toast of the [catch]. *)
Definition generateImage (b : Browser) : string * list Effect :=
  if exportRef_current b then
    match html2canvas_outcome b with
    | Some dataUrl => (dataUrl, [])
    | None =>
        ("", [Toast "Error generating image"
                "There was an error creating the share image" true])
    end
  else ("", []).

(** The image was asked for and did not come: the [catch] of line 74 ran. *)
Definition imageFailed (b : Browser) : bool :=
  exportRef_current b
  && match html2canvas_outcome b with None => true | Some _ => false end.

(** A string in a condition: true unless empty. *)
Definition truthy (s : string) : bool :=
  match s with EmptyString => false | String _ _ => true end.

(** Lines 83-118: the [switch]. *)
Definition shareAction (platform : Platform) (text url imageUrl : string)
  : list Effect :=
  match platform with
  | X =>
      [WindowOpen
         ("https://twitter.com/intent/tweet?text=" ++ encodeURIComponent text
          ++ "&url=" ++ encodeURIComponent url)
         "_blank"]
  | Linkedin =>
      [WindowOpen
         ("https://www.linkedin.com/sharing/share-offsite/?url="
          ++ encodeURIComponent url ++ "&summary=" ++ encodeURIComponent text)
         "_blank"]
  | Download =>
      if truthy imageUrl
      then [LinkClick "burnout-assessment.png" imageUrl;
            Toast "Download started"
              "Your assessment has been downloaded as a PNG file" false]
      else []
  | Email =>
      let subject := encodeURIComponent "My Burnout Risk Assessment Results" in
      let body :=
        encodeURIComponent
          (text ++ LF ++ LF ++ "Try the calculator yourself at: " ++ url) in
      [SetLocation ("mailto:?subject=" ++ subject ++ "&body=" ++ body)]
  end.

(** [handleShare], as the list of its effects in order. *)
Definition handleShareEffects (platform : Platform) (i : BurnoutInputs)
    (b : Browser) : list Effect :=
  let text := shareText i in
  let url := location_href b in
  let '(imageUrl, raised) := generateImage b in
  raised ++ shareAction platform text url imageUrl.

(** The address an effect sends the browser to, if it is one that does. *)
Definition target_url (e : Effect) : option string :=
  match e with
  | WindowOpen url _ => Some url
  | SetLocation href => Some href
  | _ => None
  end.

(** How often the character [c] occurs in [s]. *)
Fixpoint occurrences (c : ascii) (s : string) : nat :=
  match s with
  | EmptyString => 0
  | String d s' => (if Ascii.eqb c d then 1 else 0) + occurrences c s'
  end.

Local Close Scope string_scope.

(** ** Facts on clamping *)

Lemma min_max_is_clamp (x : R) :
  Math_min (Math_max x 0) 1 = Spec.clamp 0 1 x.
Proof.
  unfold Math_min, Math_max, Spec.clamp, Rmin, Rmax.
  repeat destruct Rle_dec; repeat destruct Rlt_dec; lra.
Qed.

Lemma clamp_bounds (lo hi x : R) :
  lo <= hi -> lo <= Spec.clamp lo hi x <= hi.
Proof.
  intros Hle. unfold Spec.clamp.
  repeat destruct Rlt_dec; lra.
Qed.

Lemma clamp_mono (lo hi x y : R) :
  lo <= hi -> x <= y -> Spec.clamp lo hi x <= Spec.clamp lo hi y.
Proof.
  intros Hle Hxy. unfold Spec.clamp.
  repeat destruct Rlt_dec; lra.
Qed.

Lemma calculateRiskScore_clamp (i : BurnoutInputs) :
  calculateRiskScore i = Spec.clamp 0 1 (Spec.rawScore i) * 10.
Proof.
  unfold calculateRiskScore. cbv zeta.
  rewrite min_max_is_clamp. reflexivity.
Qed.

(** The weighted sum is affine in the three inputs. *)
Lemma weightedSum_affine (i : BurnoutInputs) :
  Spec.weightedSum i
  = 6 + hoursWorked i / 10 - 3 * sleepHours i / 8 - 3 * selfCareHours i / 10.
Proof.
  unfold Spec.weightedSum, Spec.workLoad, Spec.sleepDeficit, Spec.selfCareDeficit.
  field.
Qed.

(** Evaluating the scorer: unfold it, decide the two comparisons of
    [Math.max] and [Math.min], and leave the arithmetic to [lra]. *)
Ltac unfold_score :=
  unfold calculateRiskScore, Math_min, Math_max, Rmin, Rmax; cbn [hoursWorked sleepHours selfCareHours];
  repeat destruct Rle_dec; try lra.

(** ** The scorer *)

(** C1: for every triple of real inputs, in or out of the sliders' ranges,
    [calculateRiskScore] returns the weighted sum
    [workLoad*4 + sleepDeficit*3 + selfCareDeficit*3] divided by ten, clamped
    to the interval from 0 to 1, and then multiplied by ten.  The same value is
    written in three ways: as the specification's steps 1-5, with the clamp
    spelled by [min] and [max], and with the division by ten moved outside
    [max]. *)
Theorem calculateRiskScore_formula (i : BurnoutInputs) :
  calculateRiskScore i = Spec.riskScore i
  /\ calculateRiskScore i
     = Rmin (Rmax ((hoursWorked i / 40 * 4 + (8 - sleepHours i) / 8 * 3
                    + (10 - selfCareHours i) / 10 * 3) / 10) 0) 1 * 10
  /\ calculateRiskScore i
     = Rmin (Rmax (hoursWorked i / 40 * 4 + (8 - sleepHours i) / 8 * 3
                   + (10 - selfCareHours i) / 10 * 3) 0 / 10) 1 * 10.
Proof.
  split; [ | split ].
  - apply calculateRiskScore_clamp.
  - reflexivity.
  - unfold calculateRiskScore, Math_min, Math_max. cbv zeta.
    set (w := hoursWorked i / 40 * 4 + (8 - sleepHours i) / 8 * 3
              + (10 - selfCareHours i) / 10 * 3).
    replace (Rmax w 0 / 10) with (Rmax (w / 10) 0); [ reflexivity | ].
    unfold Rmax. repeat destruct Rle_dec; lra.
Qed.

(** The clamped score is the weighted sum itself, cut off at 0 and at 10. *)
Lemma calculateRiskScore_cases (i : BurnoutInputs) :
  calculateRiskScore i = Spec.clamp 0 10 (Spec.weightedSum i).
Proof.
  rewrite calculateRiskScore_clamp.
  unfold Spec.rawScore, Spec.clamp.
  repeat destruct Rlt_dec; lra.
Qed.

(** C2: the score of every triple of real inputs lies between 0 and 10, both
    included, and the inputs (100, 0, 0) score exactly 10. *)
Theorem calculateRiskScore_range :
  (forall i : BurnoutInputs, 0 <= calculateRiskScore i <= 10)
  /\ calculateRiskScore (mkInputs 100 0 0) = 10.
Proof.
  split.
  - intros i. rewrite calculateRiskScore_cases. apply clamp_bounds. lra.
  - unfold_score.
Qed.

(** C3, as the code has it: the inputs (40, 8, 10) score 4.  Both deficits are
    zero there, but the work load of a 40-hour week is 1 and weighs 4. *)
Theorem baseline_score :
  calculateRiskScore (mkInputs 40 8 10) = 4.
Proof. unfold_score. Qed.

(** C3, as the specification states it, fails: the score of (40, 8, 10) is
    not 0. *)
Lemma baseline_score_not_zero :
  calculateRiskScore (mkInputs 40 8 10) <> 0.
Proof.
  assert (H : calculateRiskScore (mkInputs 40 8 10) = 4) by unfold_score.
  rewrite H. lra.
Qed.

(** Where the score is 0: exactly where the weighted sum is not positive, for
    instance with no work at all and both deficits at zero. *)
Lemma zero_score_iff (i : BurnoutInputs) :
  calculateRiskScore i = 0 <-> Spec.weightedSum i <= 0.
Proof.
  rewrite calculateRiskScore_cases. unfold Spec.clamp.
  repeat destruct Rlt_dec; lra.
Qed.

Lemma zero_score_example :
  calculateRiskScore (mkInputs 0 8 10) = 0.
Proof. unfold_score. Qed.

(** C4: the score never decreases when [hoursWorked] grows, and never
    increases when [sleepHours] or [selfCareHours] grows, the other two inputs
    being the same. *)
Theorem calculateRiskScore_monotone :
  (forall h1 h2 s c : R,
      h1 <= h2 ->
      calculateRiskScore (mkInputs h1 s c) <= calculateRiskScore (mkInputs h2 s c))
  /\ (forall h s1 s2 c : R,
      s1 <= s2 ->
      calculateRiskScore (mkInputs h s2 c) <= calculateRiskScore (mkInputs h s1 c))
  /\ (forall h s c1 c2 : R,
      c1 <= c2 ->
      calculateRiskScore (mkInputs h s c2) <= calculateRiskScore (mkInputs h s c1)).
Proof.
  repeat split; intros; rewrite !calculateRiskScore_cases;
    apply clamp_mono; try lra; rewrite !weightedSum_affine; cbn; lra.
Qed.

Lemma calculateRiskScore_monotone_witness :
  calculateRiskScore (mkInputs 40 7 5) <= calculateRiskScore (mkInputs 60 7 5)
  /\ calculateRiskScore (mkInputs 40 9 5) <= calculateRiskScore (mkInputs 40 7 5)
  /\ calculateRiskScore (mkInputs 40 7 15) <= calculateRiskScore (mkInputs 40 7 5).
Proof.
  destruct calculateRiskScore_monotone as [Hh [Hs Hc]].
  split; [ | split ].
  - apply Hh. lra.
  - apply Hs. lra.
  - apply Hc. lra.
Defined.

(** ** The classifiers *)

Local Open Scope string_scope.

(** Deciding a statement on a classifier: take the two comparisons apart and
    close each case by computation on strings or by arithmetic. *)
Ltac class_cases :=
  unfold getRiskLevel, getBurnoutWindow; cbn [level color];
  repeat destruct Rle_dec;
  try (split; intros); try reflexivity; try discriminate; try lra.

(** C5: [getRiskLevel] cuts the scores at 3 and at 6, each boundary belonging
    to the lower tier: 3.0 is Low, 3.01 Moderate, 6.0 Moderate, 6.01 High; a
    score is Low exactly when it is at most 3, Moderate exactly when it is
    above 3 and at most 6, High exactly when it is above 6. *)
Theorem getRiskLevel_tiers :
  level (getRiskLevel 3) = "Low"
  /\ level (getRiskLevel 3.01) = "Moderate"
  /\ level (getRiskLevel 6) = "Moderate"
  /\ level (getRiskLevel 6.01) = "High"
  /\ (forall score : R, level (getRiskLevel score) = "Low" <-> (score <= 3)%R)
  /\ (forall score : R,
        level (getRiskLevel score) = "Moderate" <-> (3 < score <= 6)%R)
  /\ (forall score : R, level (getRiskLevel score) = "High" <-> (6 < score)%R).
Proof.
  split; [ class_cases | ].
  split; [ class_cases | ].
  split; [ class_cases | ].
  split; [ class_cases | ].
  split; [ | split ]; intros score; class_cases.
Qed.

(** C6: [getBurnoutWindow] returns "Low risk - maintain current balance" for
    every score of at most 3, "4-8 weeks if patterns continue" for every score
    above 3 and at most 6, and "2-4 weeks if patterns continue" for every score
    above 6; its three answers go with the three tiers of [getRiskLevel], score
    by score. *)
Theorem getBurnoutWindow_table :
  (forall score : R,
      (score <= 3)%R ->
      getBurnoutWindow score = "Low risk - maintain current balance")
  /\ (forall score : R,
      (3 < score <= 6)%R ->
      getBurnoutWindow score = "4-8 weeks if patterns continue")
  /\ (forall score : R,
      (6 < score)%R ->
      getBurnoutWindow score = "2-4 weeks if patterns continue")
  /\ (forall score : R,
      (getBurnoutWindow score = "Low risk - maintain current balance"
       <-> level (getRiskLevel score) = "Low")
      /\ (getBurnoutWindow score = "4-8 weeks if patterns continue"
          <-> level (getRiskLevel score) = "Moderate")
      /\ (getBurnoutWindow score = "2-4 weeks if patterns continue"
          <-> level (getRiskLevel score) = "High")).
Proof.
  split; [ intros score H; class_cases | ].
  split; [ intros score H; class_cases | ].
  split; [ intros score H; class_cases | ].
  intros score. split; [ | split ]; class_cases.
Qed.

Lemma getBurnoutWindow_table_witness :
  getBurnoutWindow 3 = "Low risk - maintain current balance"
  /\ getBurnoutWindow 6 = "4-8 weeks if patterns continue"
  /\ getBurnoutWindow 6.01 = "2-4 weeks if patterns continue".
Proof.
  destruct getBurnoutWindow_table as [Hlow [Hmid [Hhigh _]]].
  split; [ | split ].
  - apply Hlow. lra.
  - apply Hmid. lra.
  - apply Hhigh. lra.
Defined.

(** C7: the two worked examples.  The inputs (60, 6, 2) score 9.15, which is
    High with the window "2-4 weeks if patterns continue"; the inputs
    (20, 9, 15) score 0.125, which is Low with the window
    "Low risk - maintain current balance". *)
Theorem end_to_end_examples :
  (calculateRiskScore (mkInputs 60 6 2) = 9.15%R
   /\ level (getRiskLevel (calculateRiskScore (mkInputs 60 6 2))) = "High"
   /\ getBurnoutWindow (calculateRiskScore (mkInputs 60 6 2))
      = "2-4 weeks if patterns continue")
  /\ (calculateRiskScore (mkInputs 20 9 15) = 0.125%R
      /\ level (getRiskLevel (calculateRiskScore (mkInputs 20 9 15))) = "Low"
      /\ getBurnoutWindow (calculateRiskScore (mkInputs 20 9 15))
         = "Low risk - maintain current balance").
Proof.
  assert (H1 : calculateRiskScore (mkInputs 60 6 2) = 9.15%R) by unfold_score.
  assert (H2 : calculateRiskScore (mkInputs 20 9 15) = 0.125%R) by unfold_score.
  rewrite H1, H2. repeat split; class_cases.
Qed.

(** The intermediate values of the first example, as the specification lists
    them. *)
Lemma end_to_end_intermediate :
  Spec.workLoad (mkInputs 60 6 2) = 1.5%R
  /\ Spec.sleepDeficit (mkInputs 60 6 2) = 0.25%R
  /\ Spec.selfCareDeficit (mkInputs 60 6 2) = 0.8%R
  /\ Spec.rawScore (mkInputs 60 6 2) = 0.915%R
  /\ Spec.workLoad (mkInputs 20 9 15) = 0.5%R
  /\ Spec.sleepDeficit (mkInputs 20 9 15) = (-0.125)%R
  /\ Spec.selfCareDeficit (mkInputs 20 9 15) = (-0.5)%R
  /\ Spec.rawScore (mkInputs 20 9 15) = 0.0125%R.
Proof.
  unfold Spec.rawScore, Spec.weightedSum, Spec.workLoad, Spec.sleepDeficit,
    Spec.selfCareDeficit; cbn [hoursWorked sleepHours selfCareHours].
  repeat split; lra.
Qed.

(** C10: the inputs a session starts with, (40, 7, 5), score 5.875, which is
    Moderate; they are not the triple (40, 8, 10) at which both deficits are
    zero, and their score is neither zero nor Low. *)
Theorem default_inputs_score :
  inputs initialState = mkInputs 40 7 5
  /\ calculateRiskScore (inputs initialState) = 5.875%R
  /\ level (getRiskLevel (calculateRiskScore (inputs initialState))) = "Moderate"
  /\ inputs initialState <> mkInputs 40 8 10
  /\ calculateRiskScore (inputs initialState) <> 0%R
  /\ level (getRiskLevel (calculateRiskScore (inputs initialState))) <> "Low".
Proof.
  assert (H : calculateRiskScore (inputs initialState) = 5.875%R).
  { unfold initialState, defaultInputs. cbn [inputs]. unfold_score. }
  rewrite H.
  split; [ reflexivity | ].
  split; [ reflexivity | ].
  split; [ class_cases | ].
  split; [ | split ].
  - unfold initialState, defaultInputs. cbn [inputs]. intros E.
    apply (f_equal sleepHours) in E. cbn in E. lra.
  - lra.
  - class_cases.
Qed.

Local Close Scope string_scope.

(** ** The UI state *)

Lemma run_app (es1 es2 : list Event) (s : State) :
  run (es1 ++ es2) s = run es2 (run es1 s).
Proof.
  revert s. induction es1 as [ | e es1 IH ]; intros s; cbn.
  - reflexivity.
  - apply IH.
Qed.

(** A sequence of interactions ends where [run] ends. *)
Lemma steps_run (s s' : State) (es : list Event) :
  steps s es s' -> s' = run es s.
Proof.
  induction 1 as [ s | s s1 s2 e es Hstep _ IH ]; cbn.
  - reflexivity.
  - destruct Hstep. exact IH.
Qed.

Lemma mode_Results (s : State) : mode s = Results <-> showResults s = true.
Proof. unfold mode. destruct (showResults s); split; congruence. Qed.

Lemma mode_Editing (s : State) : mode s = Editing <-> showResults s = false.
Proof. unfold mode. destruct (showResults s); split; congruence. Qed.

(** A handler that changes the mode is [handleCalculate] out of editing or
    [handleReset] out of results. *)
Lemma dispatch_mode_change (e : Event) (s : State) :
  mode s <> mode (dispatch e s) ->
  (mode s = Editing /\ e = ClickCalculate /\ mode (dispatch e s) = Results)
  \/ (mode s = Results /\ e = ClickReset /\ mode (dispatch e s) = Editing).
Proof.
  destruct s as [i sr o]. unfold mode.
  destruct e as [ f v | | | p | b ]; destruct sr; cbn; intros H;
    try congruence; auto.
Qed.

(** In results mode every handler but [handleReset] leaves the inputs and the
    mode as they are. *)
Lemma dispatch_frozen (e : Event) (s : State) :
  showResults s = true -> isReset e = false ->
  inputs (dispatch e s) = inputs s /\ showResults (dispatch e s) = true.
Proof.
  destruct s as [i sr o]. cbn. intros -> Hr.
  destruct e as [ f v | | | p | b ]; cbn in *; try discriminate; auto.
Qed.

Lemma run_frozen (es : list Event) (s : State) :
  showResults s = true -> forallb (fun e => negb (isReset e)) es = true ->
  inputs (run es s) = inputs s /\ showResults (run es s) = true.
Proof.
  revert s. induction es as [ | e es IH ]; intros s Hs Hes; cbn in *.
  - auto.
  - apply andb_true_iff in Hes. destruct Hes as [He Hes].
    apply negb_true_iff in He.
    destruct (dispatch_frozen e s Hs He) as [Hi Hm].
    destruct (IH (dispatch e s) Hm Hes) as [Hi' Hm'].
    split; [ congruence | exact Hm' ].
Qed.

Lemma isReset_false (e : Event) : e <> ClickReset -> isReset e = false.
Proof. destruct e; cbn; congruence. Qed.

(** C8: from every state, whatever the inputs and whichever the mode, the
    reset handler leaves the inputs at (40, 7, 5), the default triple, and the
    UI in editing mode with no results shown; so does any sequence of
    interactions that ends with a reset. *)
Theorem handleReset_restores_defaults (s : State) :
  inputs (handleReset s) = mkInputs 40 7 5
  /\ inputs (handleReset s) = inputs initialState
  /\ showResults (handleReset s) = false
  /\ mode (handleReset s) = Editing
  /\ (forall es : list Event,
        inputs (run (es ++ [ClickReset]) s) = mkInputs 40 7 5
        /\ mode (run (es ++ [ClickReset]) s) = Editing).
Proof.
  repeat split; intros; rewrite run_app; reflexivity.
Qed.

(** C9: the UI has the two modes editing and results.  An interaction that
    changes the mode is the click on "Calculate Risk" in editing mode, which
    leads to results mode and keeps the inputs, or the click on "Reset
    Calculator" in results mode, which leads to editing mode; both exist.  In
    results mode a slider's callback returns the state unchanged, every
    interaction other than the reset leaves the inputs and the mode as they
    are, and so the inputs stay the same along any sequence of interactions
    without a reset. *)
Theorem ui_two_state_machine :
  (forall (s s' : State) (e : Event),
      step s e s' -> mode s <> mode s' ->
      (mode s = Editing /\ e = ClickCalculate /\ mode s' = Results)
      \/ (mode s = Results /\ e = ClickReset /\ mode s' = Editing))
  /\ (forall s : State,
        mode s = Editing ->
        step s ClickCalculate (handleCalculate s)
        /\ mode (handleCalculate s) = Results
        /\ inputs (handleCalculate s) = inputs s)
  /\ (forall s : State,
        mode s = Results ->
        step s ClickReset (handleReset s) /\ mode (handleReset s) = Editing)
  /\ (forall (s : State) (f : Field) (v : R),
        mode s = Results -> onValueChange f v s = s)
  /\ (forall (s s' : State) (e : Event),
        step s e s' -> mode s = Results -> e <> ClickReset ->
        inputs s' = inputs s /\ mode s' = Results)
  /\ (forall (s s' : State) (es : list Event),
        steps s es s' -> mode s = Results ->
        forallb (fun e => negb (isReset e)) es = true ->
        inputs s' = inputs s /\ mode s' = Results).
Proof.
  split; [ | split; [ | split; [ | split; [ | split ] ] ] ].
  - intros s s' e Hstep. destruct Hstep as [s e _].
    apply dispatch_mode_change.
  - intros s Hs. apply mode_Editing in Hs.
    split; [ | split ]; try reflexivity.
    apply (step_intro s ClickCalculate). cbn. rewrite Hs. reflexivity.
  - intros s Hs. apply mode_Results in Hs.
    split; [ | reflexivity ].
    apply (step_intro s ClickReset). exact Hs.
  - intros s f v Hs. apply mode_Results in Hs.
    unfold onValueChange. rewrite Hs. reflexivity.
  - intros s s' e Hstep Hs He. destruct Hstep as [s e _].
    apply mode_Results in Hs.
    destruct (dispatch_frozen e s Hs (isReset_false e He)) as [Hi Hm].
    split; [ exact Hi | apply mode_Results; exact Hm ].
  - intros s s' es Hsteps Hs Hes.
    apply steps_run in Hsteps. subst s'.
    apply mode_Results in Hs.
    destruct (run_frozen es s Hs Hes) as [Hi Hm].
    split; [ exact Hi | apply mode_Results; exact Hm ].
Qed.

(** A session: calculate on the defaults, then move a slider, share, and
    toggle the panel.  The inputs are still the defaults and the mode is still
    results. *)
Lemma ui_two_state_machine_witness :
  let frozen := handleCalculate initialState in
  let es := [SlideTo HoursWorked 80; ClickShare Email; OpenChange true] in
  inputs (run es frozen) = mkInputs 40 7 5 /\ mode (run es frozen) = Results.
Proof.
  intros frozen es.
  destruct ui_two_state_machine as [_ [_ [_ [_ [_ Hrun]]]]].
  apply (Hrun frozen (run es frozen) es).
  - repeat (eapply steps_cons; [ apply step_intro; reflexivity | ]).
    apply steps_nil.
  - reflexivity.
  - reflexivity.
Defined.

(** ** The examples again, on binary64 numbers

    The decimal constants below stand for the binary64 value nearest to them,
    as they do in JavaScript. *)

#[local] Set Warnings "-inexact-float".

Lemma f64_examples :
  F64.calculateRiskScore (F64.mkInputs 60 6 2) = 9.15%float
  /\ F64.calculateRiskScore (F64.mkInputs 20 9 15) = 0.125%float
  /\ F64.calculateRiskScore (F64.mkInputs 100 0 0) = 10%float
  /\ F64.calculateRiskScore (F64.mkInputs 40 8 10) = 4%float
  /\ F64.calculateRiskScore (F64.mkInputs 40 7 5) = 5.875%float.
Proof. repeat split; vm_compute; reflexivity. Qed.

Lemma f64_classified :
  F64.getRiskLevel 3 = getRiskLevel 3
  /\ F64.getRiskLevel 3.01 = getRiskLevel 3.01
  /\ F64.getRiskLevel 6 = getRiskLevel 6
  /\ F64.getRiskLevel 6.01 = getRiskLevel 6.01
  /\ level (F64.getRiskLevel 9.15) = "High"%string
  /\ F64.getBurnoutWindow 9.15 = "2-4 weeks if patterns continue"%string
  /\ level (F64.getRiskLevel 0.125) = "Low"%string
  /\ F64.getBurnoutWindow 0.125 = "Low risk - maintain current balance"%string
  /\ level (F64.getRiskLevel 5.875) = "Moderate"%string.
Proof.
  repeat split; try (vm_compute; reflexivity);
    unfold getRiskLevel; repeat destruct Rle_dec; try reflexivity; lra.
Qed.

(** A NaN input is no real number, and it is not clamped: it comes out as
    NaN, which [getRiskLevel] then calls High, both comparisons being false. *)
Lemma f64_nan :
  F64.calculateRiskScore (F64.mkInputs nan 7 5) = nan
  /\ level (F64.getRiskLevel nan) = "High"%string.
Proof. split; vm_compute; reflexivity. Qed.

(** ** More on the scorer *)

Local Open Scope R_scope.







(** ** The sliders while editing *)

Lemma fieldValue_spread (i : BurnoutInputs) (f g : Field) (v : R) :
  fieldValue (spread i f v) g
  = match f, g with
    | HoursWorked, HoursWorked | SleepHours, SleepHours
    | SelfCareHours, SelfCareHours => v
    | _, _ => fieldValue i g
    end.
Proof. destruct f, g; reflexivity. Qed.

(** While editing, moving a slider writes its own field and nothing else: the
    field reads back the slider's value, the two other fields, the mode and
    the panel are as before. *)
Theorem onValueChange_writes_one_field (s : State) (f : Field) (v : R) :
  showResults s = false ->
  fieldValue (inputs (onValueChange f v s)) f = v
  /\ (forall g : Field,
        g <> f ->
        fieldValue (inputs (onValueChange f v s)) g = fieldValue (inputs s) g)
  /\ showResults (onValueChange f v s) = showResults s
  /\ isOpen (onValueChange f v s) = isOpen s.
Proof.
  intros Hs. unfold onValueChange. rewrite Hs. cbn.
  split; [ | split; [ | split ] ]; try reflexivity.
  - rewrite fieldValue_spread. destruct f; reflexivity.
  - intros g Hg. rewrite fieldValue_spread.
    destruct f, g; try reflexivity; congruence.
Qed.

Lemma onValueChange_writes_one_field_witness :
  fieldValue (inputs (onValueChange SleepHours 6 initialState)) SleepHours = 6
  /\ (forall g : Field,
        g <> SleepHours ->
        fieldValue (inputs (onValueChange SleepHours 6 initialState)) g
        = fieldValue (inputs initialState) g)
  /\ showResults (onValueChange SleepHours 6 initialState)
     = showResults initialState
  /\ isOpen (onValueChange SleepHours 6 initialState) = isOpen initialState.
Proof.
  apply (onValueChange_writes_one_field initialState SleepHours 6).
  reflexivity.
Defined.



(** ** Invariants of a session *)

Lemma inSliderRange_default : inSliderRange defaultInputs.
Proof.
  intros f. unfold sliderMin, sliderMax, fieldValue, defaultInputs.
  destruct f; cbn; lra.
Qed.

Lemma inSliderRange_spread (i : BurnoutInputs) (f : Field) (v : R) :
  inSliderRange i -> sliderMin f <= v <= sliderMax f ->
  inSliderRange (spread i f v).
Proof.
  intros Hi Hv g. rewrite fieldValue_spread.
  destruct f, g; try exact Hv; apply (Hi _).
Qed.

Lemma dispatch_inSliderRange (e : Event) (s : State) :
  inSliderRange (inputs s) -> withinSlider e ->
  inSliderRange (inputs (dispatch e s)).
Proof.
  intros Hs He. destruct e as [ f v | | | p | b ]; cbn in *.
  - unfold onValueChange. destruct (showResults s); cbn; [ exact Hs | ].
    apply inSliderRange_spread; assumption.
  - exact Hs.
  - apply inSliderRange_default.
  - exact Hs.
  - exact Hs.
Qed.

(** The inputs never leave the sliders' ranges: if they are within the ranges
    (as they are at mount) and every slider event carries a value between its
    slider's [min] and [max], then after any sequence of handlers
    [hoursWorked] is between 0 and 100, [sleepHours] between 0 and 12 and
    [selfCareHours] between 0 and 40. *)
Theorem inputs_stay_in_range (es : list Event) (s : State) :
  inSliderRange (inputs s) ->
  Forall withinSlider es ->
  0 <= hoursWorked (inputs (run es s)) <= 100
  /\ 0 <= sleepHours (inputs (run es s)) <= 12
  /\ 0 <= selfCareHours (inputs (run es s)) <= 40.
Proof.
  intros Hs Hes.
  assert (H : inSliderRange (inputs (run es s))).
  { revert s Hs. induction Hes as [ | e es He _ IH ]; intros s Hs; cbn.
    - exact Hs.
    - apply IH. apply dispatch_inSliderRange; assumption. }
  split; [ | split ].
  - apply (H HoursWorked).
  - apply (H SleepHours).
  - apply (H SelfCareHours).
Qed.

Lemma inputs_stay_in_range_witness :
  let es := [SlideTo HoursWorked 100; SlideTo SleepHours 0; ClickCalculate;
             SlideTo SelfCareHours 40; ClickReset; SlideTo SelfCareHours 40] in
  0 <= hoursWorked (inputs (run es initialState)) <= 100
  /\ 0 <= sleepHours (inputs (run es initialState)) <= 12
  /\ 0 <= selfCareHours (inputs (run es initialState)) <= 40.
Proof.
  intros es. apply (inputs_stay_in_range es initialState).
  - apply inSliderRange_default.
  - repeat constructor; unfold sliderMin, sliderMax; lra.
Defined.

Lemma dispatch_panel (e : Event) (s : State) :
  isOpenChange e = false ->
  isOpen s = negb (showResults s) ->
  isOpen (dispatch e s) = negb (showResults (dispatch e s)).
Proof.
  intros He Hs. destruct e as [ f v | | | p | b ]; cbn in *;
    try discriminate; try reflexivity; try exact Hs.
  unfold onValueChange. destruct (showResults s) eqn:E; cbn.
  - rewrite E. exact Hs.
  - exact Hs.
Qed.

(** The panel of sliders follows the mode: as long as nothing fires the
    collapsible's own [onOpenChange] (the component renders no trigger for
    it), the panel is open exactly while editing and collapsed exactly while
    the results are shown, after any sequence of handlers from mount. *)
Theorem panel_follows_mode (es : list Event) :
  forallb (fun e => negb (isOpenChange e)) es = true ->
  isOpen (run es initialState) = negb (showResults (run es initialState)).
Proof.
  assert (H : forall s : State,
             isOpen s = negb (showResults s) ->
             forallb (fun e => negb (isOpenChange e)) es = true ->
             isOpen (run es s) = negb (showResults (run es s))).
  { induction es as [ | e es IH ]; intros s Hs Hes; cbn in *.
    - exact Hs.
    - apply andb_true_iff in Hes. destruct Hes as [He Hes].
      apply negb_true_iff in He.
      apply IH; [ apply dispatch_panel; assumption | exact Hes ]. }
  apply H. reflexivity.
Qed.

Lemma panel_follows_mode_witness :
  let es := [SlideTo SleepHours 6; ClickCalculate; ClickShare Email;
             ClickReset; ClickCalculate] in
  isOpen (run es initialState) = negb (showResults (run es initialState)).
Proof.
  intros es. apply (panel_follows_mode es). reflexivity.
Defined.

Lemma step_counts (s s' : State) (e : Event) :
  step s e s' ->
  (flag (showResults s) + flag (isCalculate e)
   = flag (isReset e) + flag (showResults s'))%nat.
Proof.
  intros Hstep. destruct Hstep as [s e Hr].
  destruct s as [i sr o].
  destruct e as [ f v | | | p | b ]; destruct sr; cbn in *;
    try discriminate; reflexivity.
Qed.

Lemma countEvents_cons (p : Event -> bool) (e : Event) (es : list Event) :
  (countEvents p (e :: es) = flag (p e) + countEvents p es)%nat.
Proof. unfold countEvents. cbn. destruct (p e); reflexivity. Qed.

(** "Calculate Risk" and "Reset Calculator" take turns: along any sequence of
    interactions with the rendered controls, starting at mount, the clicks on
    Calculate are as many as the clicks on Reset while editing and one more
    while the results are shown. *)
Theorem calculate_and_reset_alternate (es : list Event) (s' : State) :
  steps initialState es s' ->
  (countEvents isCalculate es
   = countEvents isReset es + (if showResults s' then 1 else 0))%nat.
Proof.
  intros Hsteps.
  assert (H : forall s : State,
             steps s es s' ->
             (flag (showResults s) + countEvents isCalculate es
              = countEvents isReset es + flag (showResults s'))%nat).
  { clear Hsteps. intros s Hsteps.
    induction Hsteps as [ s | s s1 s2 e es Hstep _ IH ].
    - cbn. lia.
    - rewrite !countEvents_cons. apply step_counts in Hstep. lia. }
  apply (H initialState Hsteps).
Qed.

Lemma calculate_and_reset_alternate_witness :
  (countEvents isCalculate [ClickCalculate; ClickReset; ClickCalculate]
   = countEvents isReset [ClickCalculate; ClickReset; ClickCalculate] + 1)%nat.
Proof.
  apply (calculate_and_reset_alternate
           [ClickCalculate; ClickReset; ClickCalculate]
           (handleCalculate initialState)).
  repeat (eapply steps_cons; [ apply step_intro; reflexivity | ]).
  apply steps_nil.
Defined.

(** ** Sharing *)

Local Open Scope string_scope.

Lemma generateImage_raised (b : Browser) :
  snd (generateImage b)
  = if imageFailed b
    then [Toast "Error generating image"
            "There was an error creating the share image" true]
    else [].
Proof.
  unfold generateImage, imageFailed.
  destruct (exportRef_current b), (html2canvas_outcome b); reflexivity.
Qed.

Lemma handleShareEffects_split (p : Platform) (i : BurnoutInputs) (b : Browser) :
  handleShareEffects p i b
  = (snd (generateImage b)
     ++ shareAction p (shareText i) (location_href b) (fst (generateImage b)))%list.
Proof.
  unfold handleShareEffects. destruct (generateImage b); reflexivity.
Qed.

(** A failed image does not block sharing on X, on LinkedIn or by email: the
    handler ends with one and the same browser action (an opened window or a
    new location) whatever became of the image, and a failure only puts the
    error toast before it. *)
Theorem share_survives_image_failure
    (p : Platform) (i : BurnoutInputs) (b b' : Browser) :
  p <> Download ->
  location_href b = location_href b' ->
  exists act : Effect,
    target_url act <> None
    /\ handleShareEffects p i b
       = ((if imageFailed b
           then [Toast "Error generating image"
                   "There was an error creating the share image" true]
           else [])
          ++ [act])%list
    /\ handleShareEffects p i b'
       = ((if imageFailed b'
           then [Toast "Error generating image"
                   "There was an error creating the share image" true]
           else [])
          ++ [act])%list.
Proof.
  intros Hp Hurl.
  rewrite !handleShareEffects_split, !generateImage_raised, <- Hurl.
  destruct p; try congruence; cbn [shareAction];
    eexists; (split; [ | split; reflexivity ]); discriminate.
Qed.

Lemma share_survives_image_failure_witness :
  exists act : Effect,
    target_url act <> None
    /\ handleShareEffects Email defaultInputs
         (mkBrowser "https://example.org/" true None)
       = ([Toast "Error generating image"
             "There was an error creating the share image" true] ++ [act])%list
    /\ handleShareEffects Email defaultInputs
         (mkBrowser "https://example.org/" true (Some "data:image/png;base64,AAAA"))
       = ([] ++ [act])%list.
Proof.
  apply (share_survives_image_failure Email defaultInputs
           (mkBrowser "https://example.org/" true None)
           (mkBrowser "https://example.org/" true
              (Some "data:image/png;base64,AAAA"))).
  - discriminate.
  - reflexivity.
Defined.

Lemma truthy_iff (s : string) : truthy s = true <-> s <> "".
Proof. destruct s; cbn; split; congruence. Qed.

(** The download link is clicked only for the platform [download] and only
    with an image: a click on a link to [href] named [download] is among the
    effects exactly when the platform is [download], the name is
    "burnout-assessment.png", [exportRef.current] is set and the image came
    out as the non-empty data URL [href].  When the image failed the only
    effect of a download is the error toast, and when [exportRef.current] is
    not set a download does nothing at all. *)
Theorem download_needs_image (i : BurnoutInputs) (b : Browser) :
  (forall (p : Platform) (download href : string),
      In (LinkClick download href) (handleShareEffects p i b)
      <-> p = Download
          /\ download = "burnout-assessment.png"
          /\ exportRef_current b = true
          /\ html2canvas_outcome b = Some href
          /\ href <> "")
  /\ (imageFailed b = true ->
      handleShareEffects Download i b
      = [Toast "Error generating image"
           "There was an error creating the share image" true])
  /\ (exportRef_current b = false -> handleShareEffects Download i b = []).
Proof.
  split; [ | split ].
  - intros p download href.
    unfold handleShareEffects, generateImage.
    destruct (exportRef_current b), (html2canvas_outcome b) as [ u | ];
      destruct p; cbn [shareAction app In truthy];
      try (destruct (truthy u) eqn:Hu; cbn [In]);
      split; intros H;
      repeat match goal with
        | H : _ \/ _ |- _ => destruct H
        | H : _ /\ _ |- _ => destruct H
        | H : False |- _ => destruct H
        end;
      try discriminate; try congruence.
    + match goal with H : LinkClick _ _ = LinkClick _ _ |- _ => inversion H end.
      subst. repeat split; try reflexivity. apply truthy_iff. exact Hu.
    + left. congruence.
    + match goal with H : Some _ = Some _ |- _ => inversion H end. subst.
      match goal with H : href <> "" |- _ => apply truthy_iff in H end.
      congruence.
  - unfold imageFailed, handleShareEffects, generateImage.
    destruct (exportRef_current b), (html2canvas_outcome b);
      cbn; intros H; try discriminate; reflexivity.
  - unfold handleShareEffects, generateImage. intros ->. reflexivity.
Qed.

Lemma download_needs_image_witness :
  handleShareEffects Download defaultInputs
    (mkBrowser "https://example.org/" true None)
  = [Toast "Error generating image"
       "There was an error creating the share image" true]
  /\ handleShareEffects Download defaultInputs
       (mkBrowser "https://example.org/" false (Some "data:,"))
     = [].
Proof.
  split.
  - apply (download_needs_image defaultInputs
             (mkBrowser "https://example.org/" true None)).
    reflexivity.
  - apply (download_needs_image defaultInputs
             (mkBrowser "https://example.org/" false (Some "data:,"))).
    reflexivity.
Defined.

(** *** The addresses [handleShare] builds *)

Lemma occurrences_app (c : ascii) (s t : string) :
  occurrences c (s ++ t) = (occurrences c s + occurrences c t)%nat.
Proof.
  induction s as [ | d s IH ]; cbn.
  - reflexivity.
  - rewrite IH. lia.
Qed.

Lemma hexDigit_unescaped (n : nat) : uriUnescaped (hexDigit n) = true.
Proof.
  do 17 (destruct n as [ | n ]; [ reflexivity | ]). reflexivity.
Qed.

(** A character that [encodeURIComponent] escapes, other than the percent
    sign, does not occur in what it returns. *)
Lemma encodeURIComponent_escapes (c : ascii) (s : string) :
  uriUnescaped c = false -> c <> "%"%char ->
  occurrences c (encodeURIComponent s) = 0%nat.
Proof.
  intros Hc Hp.
  assert (Hhex : forall n : nat, Ascii.eqb c (hexDigit n) = false).
  { intros n. apply Ascii.eqb_neq. intros E.
    rewrite E, hexDigit_unescaped in Hc. discriminate. }
  apply Ascii.eqb_neq in Hp.
  induction s as [ | d s IH ]; cbn [encodeURIComponent].
  - reflexivity.
  - rewrite occurrences_app, IH.
    destruct (uriUnescaped d) eqn:Hd; unfold percentEncode; cbn [occurrences].
    + destruct (Ascii.eqb c d) eqn:E; [ | reflexivity ].
      apply Ascii.eqb_eq in E. congruence.
    + rewrite Hp, !Hhex. reflexivity.
Qed.

(** A character that is escaped and is no percent sign occurs in an address
    made of two constant parts and two escaped values as often as in the
    constant parts. *)
Lemma query_occurrences (c : ascii) (pre mid v1 v2 : string) :
  uriUnescaped c = false -> c <> "%"%char ->
  occurrences c (pre ++ encodeURIComponent v1 ++ mid ++ encodeURIComponent v2)
  = (occurrences c pre + occurrences c mid)%nat.
Proof.
  intros Hc Hp.
  rewrite !occurrences_app, !encodeURIComponent_escapes by assumption. lia.
Qed.

Lemma target_url_WindowOpen (url target u : string) :
  target_url (WindowOpen url target) = Some u -> u = url.
Proof. cbn. congruence. Qed.

Lemma target_url_SetLocation (href u : string) :
  target_url (SetLocation href) = Some u -> u = href.
Proof. cbn. congruence. Qed.

(** Every address [handleShare] sends the browser to has one query with two
    parameters, whatever the page's address and the share text contain: in it
    there is exactly one question mark, one ampersand and two equals signs,
    and neither a space nor a hash sign. *)
Theorem share_url_shape
    (p : Platform) (i : BurnoutInputs) (b : Browser) (e : Effect) (u : string) :
  In e (handleShareEffects p i b) ->
  target_url e = Some u ->
  occurrences "?" u = 1%nat
  /\ occurrences "&" u = 1%nat
  /\ occurrences "=" u = 2%nat
  /\ occurrences " " u = 0%nat
  /\ occurrences "#" u = 0%nat.
Proof.
  intros Hin Hu.
  rewrite handleShareEffects_split, generateImage_raised in Hin.
  apply in_app_or in Hin. destruct Hin as [Hin | Hin].
  { destruct (imageFailed b); cbn in Hin; [ | contradiction ].
    destruct Hin as [<- | []]. discriminate. }
  destruct p; unfold shareAction in Hin.
  - destruct Hin as [<- | []]. apply target_url_WindowOpen in Hu. subst u.
    rewrite !query_occurrences by (reflexivity || discriminate).
    repeat split; reflexivity.
  - destruct Hin as [<- | []]. apply target_url_WindowOpen in Hu. subst u.
    rewrite !query_occurrences by (reflexivity || discriminate).
    repeat split; reflexivity.
  - destruct (truthy (fst (generateImage b))); cbn in Hin;
      [ destruct Hin as [<- | [<- | []]]; discriminate | contradiction ].
  - destruct Hin as [<- | []]. apply target_url_SetLocation in Hu. subst u.
    cbv zeta.
    rewrite !query_occurrences by (reflexivity || discriminate).
    repeat split; reflexivity.
Qed.

Lemma share_url_shape_witness :
  let u :=
    "https://twitter.com/intent/tweet?text="
    ++ encodeURIComponent (shareText defaultInputs)
    ++ "&url=" ++ encodeURIComponent "https://example.org/burnout?ref=a&b=c#top" in
  occurrences "?" u = 1%nat
  /\ occurrences "&" u = 1%nat
  /\ occurrences "=" u = 2%nat
  /\ occurrences " " u = 0%nat
  /\ occurrences "#" u = 0%nat.
Proof.
  intros u.
  apply (share_url_shape X defaultInputs
           (mkBrowser "https://example.org/burnout?ref=a&b=c#top" true None)
           (WindowOpen u "_blank") u).
  - right. left. reflexivity.
  - reflexivity.
Defined.

(** ** The score as it is printed *)

(** [nearestInteger] is the rounding [toFixed] asks for: the result is within
    one half of [x], and at a tie it is the larger of the two integers. *)
Lemma nearestInteger_spec (x : R) :
  (IZR (nearestInteger x) - / 2 <= x < IZR (nearestInteger x) + / 2)%R.
Proof.
  unfold nearestInteger.
  destruct (base_Int_part (x + / 2)) as [H1 H2]. lra.
Qed.

Lemma nearestInteger_eq (x : R) (n : Z) :
  (IZR n - / 2 <= x < IZR n + / 2)%R -> nearestInteger x = n.
Proof.
  intros H. unfold nearestInteger. symmetry. apply Int_part_spec. lra.
Qed.

(** The printed score can disagree with the tier at a threshold: every score
    above 3 and below 3.05 is printed "3.0" and is Moderate, and every score
    above 6 and below 6.05 is printed "6.0" and is High, while the scores 3 and
    6 themselves, printed the same, are Low and Moderate. *)
Theorem printed_score_hides_threshold :
  (forall score : R,
      (3 < score < 3.05)%R ->
      toFixed1 score = "3.0" /\ level (getRiskLevel score) = "Moderate")
  /\ (forall score : R,
        (6 < score < 6.05)%R ->
        toFixed1 score = "6.0" /\ level (getRiskLevel score) = "High")
  /\ (toFixed1 3 = "3.0" /\ level (getRiskLevel 3) = "Low")
  /\ (toFixed1 6 = "6.0" /\ level (getRiskLevel 6) = "Moderate").
Proof.
  assert (Hfix : forall (x : R) (n : Z),
             (0 <= x)%R -> (IZR n - / 2 <= x * 10 < IZR n + / 2)%R ->
             toFixed1 x = pointBeforeLast n).
  { intros x n Hx Hn. unfold toFixed1.
    destruct (Rlt_dec x 0) as [Hneg | _]; [ lra | ].
    rewrite (nearestInteger_eq (x * 10) n Hn). reflexivity. }
  split; [ | split; [ | split ] ].
  - intros score H. split.
    + rewrite (Hfix score 30%Z); [ reflexivity | lra | lra ].
    + class_cases.
  - intros score H. split.
    + rewrite (Hfix score 60%Z); [ reflexivity | lra | lra ].
    + class_cases.
  - split.
    + rewrite (Hfix 3%R 30%Z); [ reflexivity | lra | lra ].
    + class_cases.
  - split.
    + rewrite (Hfix 6%R 60%Z); [ reflexivity | lra | lra ].
    + class_cases.
Qed.

(** Two triples the sliders can be set to, (2, 0.5, 10) and (30, 7.5, 0.5),
    whose results read "3.0" with Moderate and "6.0" with High. *)
Lemma printed_score_hides_threshold_witness :
  (toFixed1 (calculateRiskScore (mkInputs 2 0.5 10)) = "3.0"
   /\ level (getRiskLevel (calculateRiskScore (mkInputs 2 0.5 10))) = "Moderate")
  /\ (toFixed1 (calculateRiskScore (mkInputs 30 7.5 0.5)) = "6.0"
      /\ level (getRiskLevel (calculateRiskScore (mkInputs 30 7.5 0.5))) = "High").
Proof.
  destruct printed_score_hides_threshold as [Hthree [Hsix _]].
  split.
  - apply Hthree.
    assert (E : calculateRiskScore (mkInputs 2 0.5 10) = 3.0125%R)
      by unfold_score.
    rewrite E. lra.
  - apply Hsix.
    assert (E : calculateRiskScore (mkInputs 30 7.5 0.5) = 6.0375%R)
      by unfold_score.
    rewrite E. lra.
Defined.

(** What is printed for a score is never negative and never above "10.0": for
    every triple of inputs the printed text is that of a number of tenths
    between 0 and 100 which is within one twentieth of the score. *)
Theorem printed_score_range (i : BurnoutInputs) :
  exists n : Z,
    (0 <= n <= 100)%Z
    /\ toFixed1 (calculateRiskScore i) = pointBeforeLast n
    /\ (IZR n / 10 - / 20 <= calculateRiskScore i < IZR n / 10 + / 20)%R.
Proof.
  assert (Hr : (0 <= calculateRiskScore i <= 10)%R).
  { rewrite calculateRiskScore_cases. apply clamp_bounds. lra. }
  set (x := calculateRiskScore i) in *.
  exists (nearestInteger (x * 10)).
  pose proof (nearestInteger_spec (x * 10)) as Hn.
  split; [ | split ].
  - split.
    + assert (H : (-1 < nearestInteger (x * 10))%Z); [ | lia ].
      apply lt_IZR. lra.
    + assert (H : (nearestInteger (x * 10) < 101)%Z); [ | lia ].
      apply lt_IZR. lra.
  - unfold toFixed1. destruct (Rlt_dec x 0) as [Hneg | _]; [ lra | reflexivity ].
  - lra.
Qed.

(** ** The classifiers on binary64 numbers *)

(** On every binary64 score, NaN and the infinities included, the window
    printed goes with the level printed: "Low risk - maintain current
    balance" with Low, "4-8 weeks if patterns continue" with Moderate and
    "2-4 weeks if patterns continue" with High; no other level or window is
    ever returned. *)
Theorem f64_window_goes_with_level (score : float) :
  (level (F64.getRiskLevel score) = "Low"
   /\ F64.getBurnoutWindow score = "Low risk - maintain current balance")
  \/ (level (F64.getRiskLevel score) = "Moderate"
      /\ F64.getBurnoutWindow score = "4-8 weeks if patterns continue")
  \/ (level (F64.getRiskLevel score) = "High"
      /\ F64.getBurnoutWindow score = "2-4 weeks if patterns continue").
Proof.
  unfold F64.getRiskLevel, F64.getBurnoutWindow.
  destruct (score <=? 3)%float; [ left; split; reflexivity | ].
  destruct (score <=? 6)%float; [ right; left | right; right ];
    split; reflexivity.
Qed.

Local Close Scope string_scope.
